(** * baseApp: a page/controller scaffold over Tk

    Shallow embedding of [baseApp.py].  Python objects are records; the
    dictionaries the code iterates over or indexes with run-time keys are
    finite maps; objects that the code shares by reference live in a store
    and are named by their index in it.  Code that can raise runs in a
    state-and-exception monad whose result keeps the state reached when the
    exception was raised. *)

From stdpp Require Import gmap strings list fin_maps.

Open Scope string_scope.
Open Scope list_scope.

(** ** Python exceptions and the state-and-exception monad *)

Inductive Exn :=
| KeyError      (* dict[key] on a missing key *)
| IndexError    (* list[i] out of range *)
| AttributeError (* method looked up on an object of another class *)
| NoSuchObject. (* a reference that names no live object; Python cannot
                   produce one, the store of the model can *)

Inductive Outcome (A : Type) :=
| Ok (a : A)
| Raise (e : Exn).
Arguments Ok {A} a.
Arguments Raise {A} e.

Definition M (S A : Type) : Type := S → Outcome A * S.

#[global] Instance M_ret {S} : MRet (M S) := λ A a s, (Ok a, s).

#[global] Instance M_bind {S} : MBind (M S) := λ A B f m s,
  match m s with
  | (Ok a, s') => f a s'
  | (Raise e, s') => (Raise e, s')
  end.

Definition raise {S A} (e : Exn) : M S A := λ s, (Raise e, s).
Definition gets {S A} (f : S → A) : M S A := λ s, (Ok (f s), s).
Definition modify {S} (f : S → S) : M S unit := λ s, (Ok tt, f s).

(** [for x in l: body x] *)
Fixpoint for_ {S A} (l : list A) (body : A → M S unit) : M S unit :=
  match l with
  | [] => mret tt
  | x :: l' => body x ;; for_ l' body
  end.

(** ** Tk widgets, as far as baseApp.py configures them *)

Inductive TkState := normal | active | disabled.

#[global] Instance TkState_eq_dec : EqDecision TkState.
Proof. solve_decision. Defined.

Definition Font : Type := string * nat.

Module Label.
Record t := mk { text : string; font : option Font; fg : option string }.

(** [label['text'] = s] and [label.config(text=s)] *)
Definition configure_text (s : string) (l : t) : t :=
  {| text := s; font := font l; fg := fg l |}.
End Label.

(** The only command a button of this module carries is the navbar's
    [lambda : controller.show_frame(Home)]. *)
Inductive Command := show_frame_Home.

Module Button.
Record t := mk { text : string; command : Command; bg : string; state : TkState }.

(** [button['state'] = st] *)
Definition configure_state (st : TkState) (b : t) : t :=
  {| text := text b; command := command b; bg := bg b; state := st |}.
End Button.

Module Text.
Record t := mk { content : string; state : TkState;
                 wrap : string; width : nat; height : nat }.

(** [text.insert(1.0, chars)]: index 1.0 is line 1, character 0, the start
    of the buffer.  Tk ignores the insertion when the widget is disabled. *)
Definition insert_1_0 (chars : string) (w : t) : t :=
  match state w with
  | disabled => w
  | _ => {| content := chars +:+ content w; state := state w;
            wrap := wrap w; width := width w; height := height w |}
  end.

(** [text["state"] = st] *)
Definition configure_state (st : TkState) (w : t) : t :=
  {| content := content w; state := st;
     wrap := wrap w; width := width w; height := height w |}.
End Text.

(** ** Controller.settings *)

Record Settings := mkSettings {
  version : string;
  smallfont : Font;
  medfont : Font;
  largefont : Font
}.

(** [{'version': version, 'smallfont': ("Verdana", 12), ..}] *)
Definition make_settings (version : string) : Settings :=
  mkSettings version ("Verdana", 12) ("Verdana", 20) ("Verdana", 30).

(** ** class NavBar *)

Module NavBar.
(** [elements] has a fixed set of labels and texts, which are fields here;
    [elements['buttons']] is iterated over and open to further buttons, so
    it stays a dictionary. *)
Record t := mk {
  name : string;
  buttons : gmap string Button.t;   (* elements['buttons'] *)
  title : Label.t;                  (* elements['labels']['title'] *)
  desc : Text.t;                    (* elements['texts']['desc'] *)
  messages : Label.t                (* elements['labels']['messages'] *)
}.

Definition with_buttons (bs : gmap string Button.t) (self : t) : t :=
  {| name := name self; buttons := bs; title := title self;
     desc := desc self; messages := messages self |}.
Definition with_title (l : Label.t) (self : t) : t :=
  {| name := name self; buttons := buttons self; title := l;
     desc := desc self; messages := messages self |}.
Definition with_desc (d : Text.t) (self : t) : t :=
  {| name := name self; buttons := buttons self; title := title self;
     desc := d; messages := messages self |}.
Definition with_messages (l : Label.t) (self : t) : t :=
  {| name := name self; buttons := buttons self; title := title self;
     desc := desc self; messages := l |}.

(** [NavBar.__init__(parent, controller)]; the [grid] calls place the four
    widgets inside the navbar and touch nothing else. *)
Definition init (settings : Settings) : t :=
  {| name := "navbar_subframe";
     buttons := {[ "Home" := Button.mk "Home" show_frame_Home "red" normal ]};
     title := Label.mk "Default" (Some (largefont settings)) None;
     desc := Text.mk "" normal "word" 150 5;
     messages := Label.mk "Messages will be displayed here"
                          (Some (smallfont settings)) (Some "blue") |}.

(** [self.update_idletasks()] flushes pending redraws; no attribute of any
    widget changes. *)
Definition update_idletasks (self : t) : t := self.

Definition update_desc (text : string) (self : t) : t :=
  let self := with_desc (Text.insert_1_0 text (desc self)) self in
  let self := with_desc (Text.configure_state disabled (desc self)) self in
  update_idletasks self.

(** [for n in buttons: buttons[n]['state'] = st] *)
Definition set_all_states (st : TkState) (bs : gmap string Button.t)
  : gmap string Button.t :=
  foldl (λ bs n, alter (Button.configure_state st) n bs) bs (map_to_list bs).*1.

Definition lock_navbar (self : t) : t :=
  let self := with_buttons (set_all_states disabled (buttons self)) self in
  update_idletasks self.

Definition unlock_navbar (self : t) : t :=
  let self := with_buttons (set_all_states normal (buttons self)) self in
  update_idletasks self.

Definition update_title (title' : string) (self : t) : t :=
  let self := with_title (Label.configure_text title' (title self)) self in
  update_idletasks self.

Definition update_message (m : string) (self : t) : t :=
  let self := with_messages (Label.configure_text m (messages self)) self in
  update_idletasks self.
End NavBar.

(** ** pandas.DataFrame and pandastable, as far as SubTable drives them *)

(** A cell is a printed value, or [None] for NaN. *)
Definition Cell : Type := option string.

(** A frame with the default integer index [range(len(rows))]. *)
Record DataFrame := mkDataFrame {
  columns : list string;
  rows : list (list Cell)
}.

Definition ascii_lowercase : list string :=
  ["a"; "b"; "c"; "d"; "e"; "f"; "g"; "h"; "i"; "j"; "k"; "l"; "m";
   "n"; "o"; "p"; "q"; "r"; "s"; "t"; "u"; "v"; "w"; "x"; "y"; "z"].

Module TableModel.
Record t := mk { df : DataFrame }.

(** [TableModel.setup(dataframe, rows=20, columns=5)]: keeps the given
    frame; without one it makes an all-NaN frame of that shape. *)
Definition setup (dataframe : option DataFrame) (rows columns : nat) (self : t) : t :=
  match dataframe with
  | Some d => {| df := d |}
  | None => {| df := mkDataFrame (take columns ascii_lowercase)
                                (replicate rows (replicate columns None)) |}
  end.

(** [TableModel(dataframe=None, rows=20, columns=5)] *)
Definition init (dataframe : option DataFrame) (rows columns : nat) : t :=
  setup dataframe rows columns {| df := mkDataFrame [] [] |}.

Definition getRowCount (self : t) : nat := length (rows (df self)).
Definition getColumnCount (self : t) : nat := length (columns (df self)).
End TableModel.

Module Table.
(** [model] is a reference to a TableModel object; [drawn] is what the last
    [show()] put on the canvas, [None] before the first one. *)
Record t := mk {
  model : nat;
  rows : nat;
  cols : nat;
  editable : bool;
  width : nat;
  height : nat;
  drawn : option DataFrame
}.

Definition with_model (m r c : nat) (self : t) : t :=
  {| model := m; rows := r; cols := c; editable := editable self;
     width := width self; height := height self; drawn := drawn self |}.
Definition with_drawn (d : option DataFrame) (self : t) : t :=
  {| model := model self; rows := rows self; cols := cols self;
     editable := editable self; width := width self; height := height self;
     drawn := d |}.
End Table.

(** ** class SubTable *)

Module SubTable.
(** The TableModel and Table objects a SubTable reaches, by identity: an
    object's reference is its position in [objects]. *)
Inductive Obj :=
| TableModelObj (m : TableModel.t)
| TableObj (w : Table.t).

Record t := mk {
  name : string;
  objects : list Obj;
  tablemodel : nat;     (* elements['vars']['tablemodel'] *)
  table : nat           (* elements['tables']['table'] *)
}.

Definition with_objects (os : list Obj) (self : t) : t :=
  {| name := name self; objects := os;
     tablemodel := tablemodel self; table := table self |}.

Definition new (o : Obj) (os : list Obj) : nat * list Obj :=
  (length os, os ++ [o]).

(** [pandastable.Table(parent, editable=.., width=.., height=..)] with neither
    a model nor a dataframe: the widget makes a default model of its own. *)
Definition Table_new (editable : bool) (width height : nat) (os : list Obj)
  : nat * list Obj :=
  let '(m, os) := new (TableModelObj (TableModel.init None 20 5)) os in
  new (TableObj (Table.mk m 20 5 editable width height None)) os.

(** [SubTable.__init__(parent, controller)]; the [grid] call places the
    table inside the subframe. *)
Definition init : t :=
  let '(tm, os) := new (TableModelObj (TableModel.init None 20 5)) [] in
  let '(tb, os) := Table_new false 1200 500 os in
  {| name := "table_subframe"; objects := os; tablemodel := tm; table := tb |}.

(** [ref.setup(df)] *)
Definition TableModel_setup (ref : nat) (dataframe : option DataFrame) : M t unit :=
  λ self,
  match objects self !! ref with
  | Some (TableModelObj m) =>
      (Ok tt, with_objects (<[ref := TableModelObj (TableModel.setup dataframe 20 5 m)]>
                              (objects self)) self)
  | Some (TableObj _) => (Raise AttributeError, self)
  | None => (Raise NoSuchObject, self)
  end.

(** [ref.updateModel(model)]: the widget takes [model] as its model and
    reads the shape of the grid from it. *)
Definition Table_updateModel (ref : nat) (model : option nat) : M t unit :=
  λ self,
  match objects self !! ref with
  | Some (TableObj w) =>
      let m := default (Table.model w) model in
      match objects self !! m with
      | Some (TableModelObj tm) =>
          (Ok tt, with_objects
                    (<[ref := TableObj (Table.with_model m (TableModel.getRowCount tm)
                                          (TableModel.getColumnCount tm) w)]>
                       (objects self)) self)
      | Some (TableObj _) => (Raise AttributeError, self)
      | None => (Raise NoSuchObject, self)
      end
  | Some (TableModelObj _) => (Raise AttributeError, self)
  | None => (Raise NoSuchObject, self)
  end.

(** [ref.show()]: draws the frame of the widget's model. *)
Definition Table_show (ref : nat) : M t unit :=
  λ self,
  match objects self !! ref with
  | Some (TableObj w) =>
      match objects self !! Table.model w with
      | Some (TableModelObj tm) =>
          (Ok tt, with_objects
                    (<[ref := TableObj (Table.with_drawn (Some (TableModel.df tm)) w)]>
                       (objects self)) self)
      | Some (TableObj _) => (Raise AttributeError, self)
      | None => (Raise NoSuchObject, self)
      end
  | Some (TableModelObj _) => (Raise AttributeError, self)
  | None => (Raise NoSuchObject, self)
  end.

Definition edit_table (df : DataFrame) : M t unit :=
  tm ← gets tablemodel; TableModel_setup tm (Some df);;
  tb ← gets table; tm ← gets tablemodel; Table_updateModel tb (Some tm);;
  tb ← gets table; Table_show tb.



(** Both references of the instance name live objects of the right class. *)
Definition well_formed (self : t) : Prop :=
  (∃ m, objects self !! tablemodel self = Some (TableModelObj m)) ∧
  (∃ w, objects self !! table self = Some (TableObj w)).
End SubTable.

(** ** class PageTemplate and its example subclass Home *)

Module PageTemplate.
(** The scrollbars, the canvas and [mainframe] only lay the page out.  Of
    [elements], the navbar is a field; [labels] is the dictionary pages add
    labels to; [subtables] holds the SubTable subframes a page has put into
    [elements['subframes']] (none in PageTemplate and Home).  The other
    categories are created empty and no code of the module touches them. *)
Record t := mk {
  name : string;
  cols : nat;
  navbar : NavBar.t;                    (* elements['subframes']['navbar'] *)
  labels : gmap string Label.t;         (* elements['labels'] *)
  subtables : gmap string SubTable.t
}.

Definition with_name (n : string) (self : t) : t :=
  {| name := n; cols := cols self; navbar := navbar self;
     labels := labels self; subtables := subtables self |}.
Definition with_navbar (nb : NavBar.t) (self : t) : t :=
  {| name := name self; cols := cols self; navbar := nb;
     labels := labels self; subtables := subtables self |}.
Definition with_labels (ls : gmap string Label.t) (self : t) : t :=
  {| name := name self; cols := cols self; navbar := navbar self;
     labels := ls; subtables := subtables self |}.
Definition with_subtables (ts : gmap string SubTable.t) (self : t) : t :=
  {| name := name self; cols := cols self; navbar := navbar self;
     labels := labels self; subtables := ts |}.

(** [PageTemplate.__init__(parent, controller, cols=50)] *)
Definition init (settings : Settings) (cols : nat) : t :=
  {| name := "template"; cols := cols; navbar := NavBar.init settings;
     labels := ∅; subtables := ∅ |}.

(** [print(self.name)], on the lines printed so far *)
Definition on_enter (self : t) (stdout : list string) : list string :=
  stdout ++ [name self].

Definition lock (self : t) : t :=
  with_navbar (NavBar.lock_navbar (navbar self)) self.

Definition unlock (self : t) : t :=
  with_navbar (NavBar.unlock_navbar (navbar self)) self.
End PageTemplate.

Module Home.
(** [Home.__init__(parent, controller)] *)
Definition init (settings : Settings) : PageTemplate.t :=
  let self := PageTemplate.init settings 50 in
  let self := PageTemplate.with_name "Home" self in
  let self := PageTemplate.with_navbar
                (NavBar.update_title (PageTemplate.name self) (PageTemplate.navbar self)) self in
  let self := PageTemplate.with_navbar
                (NavBar.update_desc "Hello, world" (PageTemplate.navbar self)) self in
  PageTemplate.with_labels
    (<["pageLabel" := Label.mk "This is the Page Frame" (Some (medfont settings)) None]>
       (PageTemplate.labels self)) self.
End Home.

(** ** class Controller *)

(** [queue.Queue(maxsize=n)] *)
Record Queue (Value : Type) := mkQueue { maxsize : nat; items : list Value }.
Arguments mkQueue {Value} maxsize items.
Arguments maxsize {Value} q.
Arguments items {Value} q.

Section Application.

(** Page classes written by the host program: their identity, and what
    their constructor builds from the controller's settings; they inherit
    [on_enter], [lock] and [unlock] from PageTemplate, as Home does.
    [Value] is whatever the host program stores in [data] and in the
    queue. *)
Context {UserClass : Type} `{Countable UserClass}.
Context (user_init : UserClass → Settings → PageTemplate.t).
Context {Value : Type}.

Inductive PageClass :=
| PageTemplate_cls
| Home_cls
| User_cls (u : UserClass).

#[global] Instance PageClass_eq_dec : EqDecision PageClass.
Proof. solve_decision. Defined.

#[global] Instance PageClass_countable : Countable PageClass.
Proof.
  refine (inj_countable'
    (λ c, match c with
          | PageTemplate_cls => inl false
          | Home_cls => inl true
          | User_cls u => inr u
          end)
    (λ x, match x with
          | inl false => PageTemplate_cls
          | inl true => Home_cls
          | inr u => User_cls u
          end) _).
  by intros [].
Defined.

(** [F(container, self)] *)
Definition construct (F : PageClass) (settings : Settings) : PageTemplate.t :=
  match F with
  | PageTemplate_cls => PageTemplate.init settings 50
  | Home_cls => Home.init settings
  | User_cls u => user_init u settings
  end.

(** A page frame object: its class, its attributes, and how the grid
    geometry manager places it in the container (row, column, sticky). *)
Record Frame := mkFrame {
  cls : PageClass;
  page : PageTemplate.t;
  grid_info : option (nat * nat * string)
}.

Definition with_page (p : PageTemplate.t) (fr : Frame) : Frame :=
  {| cls := cls fr; page := p; grid_info := grid_info fr |}.
Definition with_grid_info (g : option (nat * nat * string)) (fr : Frame) : Frame :=
  {| cls := cls fr; page := page fr; grid_info := g |}.

(** The Controller object with the toolkit state under it.  A page frame's
    reference is its position in [instances], the children of the container
    in creation order; [stacking] is Tk's stacking order of these children,
    lowest first.  [data] and [queue] are [None] until the constructor
    assigns them.  [stdout] is what [print] has written. *)
Record App := mkApp {
  settings : Settings;
  instances : list Frame;
  stacking : list nat;
  frames : gmap PageClass nat;
  pages : list PageClass;
  data : option (gmap string (gmap string Value));
  queue : option (Queue Value);
  stdout : list string
}.

Definition with_instances (x : list Frame) (app : App) : App :=
  {| settings := settings app; instances := x; stacking := stacking app;
     frames := frames app; pages := pages app; data := data app;
     queue := queue app; stdout := stdout app |}.
Definition with_stacking (x : list nat) (app : App) : App :=
  {| settings := settings app; instances := instances app; stacking := x;
     frames := frames app; pages := pages app; data := data app;
     queue := queue app; stdout := stdout app |}.
Definition with_frames (x : gmap PageClass nat) (app : App) : App :=
  {| settings := settings app; instances := instances app; stacking := stacking app;
     frames := x; pages := pages app; data := data app;
     queue := queue app; stdout := stdout app |}.
Definition with_pages (x : list PageClass) (app : App) : App :=
  {| settings := settings app; instances := instances app; stacking := stacking app;
     frames := frames app; pages := x; data := data app;
     queue := queue app; stdout := stdout app |}.
Definition with_data (x : option (gmap string (gmap string Value))) (app : App) : App :=
  {| settings := settings app; instances := instances app; stacking := stacking app;
     frames := frames app; pages := pages app; data := x;
     queue := queue app; stdout := stdout app |}.
Definition with_queue (x : option (Queue Value)) (app : App) : App :=
  {| settings := settings app; instances := instances app; stacking := stacking app;
     frames := frames app; pages := pages app; data := data app;
     queue := x; stdout := stdout app |}.
Definition with_stdout (x : list string) (app : App) : App :=
  {| settings := settings app; instances := instances app; stacking := stacking app;
     frames := frames app; pages := pages app; data := data app;
     queue := queue app; stdout := x |}.

(** [tk.Tk.__init__(self)], [self.settings = ..] and the empty container *)
Definition Tk_init (settings : Settings) : App :=
  {| settings := settings; instances := []; stacking := []; frames := ∅;
     pages := []; data := None; queue := None; stdout := [] |}.

(** A new child of the container sits on top of its siblings. *)
Definition new_frame (F : PageClass) : M App nat := λ app,
  let f := length (instances app) in
  (Ok f, with_stacking (stacking app ++ [f])
           (with_instances (instances app ++ [mkFrame F (construct F (settings app)) None])
              app)).

(** [self.frames[F] = f] *)
Definition setitem_frames (F : PageClass) (f : nat) : M App unit :=
  modify (λ app, with_frames (<[F := f]> (frames app)) app).

(** [self.frames[F]] *)
Definition getitem_frames (F : PageClass) : M App nat := λ app,
  match frames app !! F with
  | Some f => (Ok f, app)
  | None => (Raise KeyError, app)
  end.

(** [self.pages[i]] *)
Definition getitem_pages (i : nat) : M App PageClass := λ app,
  match pages app !! i with
  | Some F => (Ok F, app)
  | None => (Raise IndexError, app)
  end.

(** Run a method of the frame object [f]. *)
Definition on_frame (f : nat) (method : Frame → Frame) : M App unit := λ app,
  match instances app !! f with
  | Some fr => (Ok tt, with_instances (<[f := method fr]> (instances app)) app)
  | None => (Raise NoSuchObject, app)
  end.

(** [f.grid(row=.., column=.., sticky=..)] *)
Definition grid (f : nat) (row column : nat) (sticky : string) : M App unit :=
  on_frame f (with_grid_info (Some (row, column, sticky))).

(** [f.tkraise()]: to the top of the stacking order of its siblings *)
Definition tkraise (f : nat) : M App unit := λ app,
  if decide (f ∈ stacking app)
  then (Ok tt, with_stacking (filter (λ g, g ≠ f) (stacking app) ++ [f]) app)
  else (Raise NoSuchObject, app).

(** [f.on_enter()] *)
Definition on_enter (f : nat) : M App unit := λ app,
  match instances app !! f with
  | Some fr => (Ok tt, with_stdout (PageTemplate.on_enter (page fr) (stdout app)) app)
  | None => (Raise NoSuchObject, app)
  end.

Definition show_frame (cont : PageClass) : M App unit :=
  frame ← getitem_frames cont;
  tkraise frame;;
  on_enter frame.

(** The body of the constructor's loop over the page classes *)
Definition register_page (F : PageClass) : M App unit :=
  f ← new_frame F; setitem_frames F f;;
  f ← getitem_frames F; grid f 0 0 "nsew".

(** [Controller(pages, version)]: the outcome of [__init__] and the object
    it leaves. *)
Definition Controller_init (pages0 : list PageClass) (version : string)
  : Outcome unit * App :=
  (modify (with_frames ∅);;
   modify (with_pages pages0);;
   ps ← gets pages;
   for_ ps register_page;;
   F ← getitem_pages 0;
   show_frame F;;
   modify (with_data (Some {[ "df" := ∅; "inputs" := ∅; "conn" := ∅ ]}));;
   modify (with_queue (Some (mkQueue 10 []))))
    (Tk_init (make_settings version)).

(** *** The calls a running application makes into this module *)

Inductive Op :=
| Call_show_frame (cont : PageClass)
| Call_on_enter (f : nat)
| Call_lock (f : nat)
| Call_unlock (f : nat)
| Call_lock_navbar (f : nat)
| Call_unlock_navbar (f : nat)
| Call_update_title (f : nat) (title : string)
| Call_update_desc (f : nat) (text : string)
| Call_update_message (f : nat) (m : string)
| Call_edit_table (f : nat) (key : string) (df : DataFrame)
| Click (f : nat) (n : string).

Definition on_page (f : nat) (method : PageTemplate.t → PageTemplate.t) : M App unit :=
  on_frame f (λ fr, with_page (method (page fr)) fr).

Definition on_navbar (f : nat) (method : NavBar.t → NavBar.t) : M App unit :=
  on_page f (λ p, PageTemplate.with_navbar (method (PageTemplate.navbar p)) p).

(** [page.elements['subframes'][key].edit_table(df)] on the page frame [f] *)
Definition edit_table_at (f : nat) (key : string) (df : DataFrame) : M App unit :=
  λ app,
  match instances app !! f with
  | Some fr =>
      match PageTemplate.subtables (page fr) !! key with
      | Some st =>
          let '(out, st') := SubTable.edit_table df st in
          (out, with_instances
                  (<[f := with_page (PageTemplate.with_subtables
                                       (<[key := st']> (PageTemplate.subtables (page fr)))
                                       (page fr)) fr]> (instances app)) app)
      | None => (Raise KeyError, app)
      end
  | None => (Raise NoSuchObject, app)
  end.

Definition run_command (c : Command) : M App unit :=
  match c with
  | show_frame_Home => show_frame Home_cls
  end.

(** A click on button [n] of the navbar of page frame [f]; Tk does not
    invoke the command of a disabled button. *)
Definition click (f : nat) (n : string) : M App unit := λ app,
  match instances app !! f with
  | Some fr =>
      match NavBar.buttons (PageTemplate.navbar (page fr)) !! n with
      | Some b =>
          match Button.state b with
          | disabled => (Ok tt, app)
          | _ => run_command (Button.command b) app
          end
      | None => (Raise KeyError, app)
      end
  | None => (Raise NoSuchObject, app)
  end.

Definition step (op : Op) : M App unit :=
  match op with
  | Call_show_frame cont => show_frame cont
  | Call_on_enter f => on_enter f
  | Call_lock f => on_page f PageTemplate.lock
  | Call_unlock f => on_page f PageTemplate.unlock
  | Call_lock_navbar f => on_navbar f NavBar.lock_navbar
  | Call_unlock_navbar f => on_navbar f NavBar.unlock_navbar
  | Call_update_title f title => on_navbar f (NavBar.update_title title)
  | Call_update_desc f text => on_navbar f (NavBar.update_desc text)
  | Call_update_message f m => on_navbar f (NavBar.update_message m)
  | Call_edit_table f key df => edit_table_at f key df
  | Click f n => click f n
  end.

(** The event loop runs one callback after the other; a callback that
    raises is abandoned and the loop goes on from the state it left. *)
Definition exec (ops : list Op) (app : App) : App :=
  foldl (λ app op, (step op app).2) app ops.

(** *** Observations *)

(** The frame the user sees: the highest gridded child of the container. *)
Definition gridded (app : App) (f : nat) : bool :=
  match instances app !! f with
  | Some fr => bool_decide (is_Some (grid_info fr))
  | None => false
  end.

Definition visible (app : App) : option nat :=
  last (filter (λ f, gridded app f = true) (stacking app)).

(** How many frame objects of class [F] exist. *)
Definition count_instances (F : PageClass) (app : App) : nat :=
  length (filter (λ fr, cls fr = F) (instances app)).

(** Every registered frame is a live, gridded child of its class, and the
    stacking order lists exactly the children. *)
Definition well_formed (app : App) : Prop :=
  (∀ F f, frames app !! F = Some f →
          ∃ fr, instances app !! f = Some fr ∧ cls fr = F ∧ is_Some (grid_info fr)) ∧
  (∀ f, f ∈ stacking app ↔ f < length (instances app)).

(** Calls that can change which frame is on top: [show_frame] itself and a
    click, whose command calls it. *)
Definition navigates (op : Op) : bool :=
  match op with
  | Call_show_frame _ | Click _ _ => true
  | _ => false
  end.


(** A call changes at most the attributes of the frame objects, the
    stacking order and the output; it keeps the class and the grid
    placement of every frame and the set of stacked frames. *)
Definition only_widgets (app app' : App) : Prop :=
  ∃ ins st out,
    app' = with_stdout out (with_stacking st (with_instances ins app)) ∧
    cls <$> ins = cls <$> instances app ∧
    grid_info <$> ins = grid_info <$> instances app ∧
    (∀ g, g ∈ st ↔ g ∈ stacking app).

(** * Properties *)

(** ** NavBar *)

Lemma append_empty_r (s : string) : s +:+ "" = s.
Proof.
  induction s as [|a s IH]; [done|].
  change (String a (s +:+ "") = String a s). by f_equal.
Qed.

Lemma lookup_foldl_alter {A} (g : A → A) (ks : list string) (m : gmap string A) (k : string) :
  NoDup ks →
  foldl (λ m n, alter g n m) m ks !! k
  = if decide (k ∈ ks) then g <$> m !! k else m !! k.
Proof.
  intros Hnd. revert m.
  induction Hnd as [|a ks Ha Hnd IH]; intros m.
  - case_decide as Hin; [by apply not_elem_of_nil in Hin | done].
  - change (foldl (λ m n, alter g n m) (alter g a m) ks !! k
            = if decide (k ∈ a :: ks) then g <$> m !! k else m !! k).
    rewrite IH. destruct (decide (k = a)) as [->|Hne].
    + rewrite lookup_alter_eq, (decide_False _ _ Ha).
      by rewrite decide_True by left.
    + rewrite lookup_alter_ne by done.
      destruct (decide (k ∈ ks)) as [Hin|Hin].
      * by rewrite decide_True by (by right).
      * rewrite decide_False; [done|]. by intros [?|?]%elem_of_cons.
Qed.

(** The loop over the button dictionary configures every button in it. *)
Lemma set_all_states_fmap (st : TkState) (bs : gmap string Button.t) :
  NavBar.set_all_states st bs = Button.configure_state st <$> bs.
Proof.
  apply map_eq; intros n. unfold NavBar.set_all_states.
  rewrite lookup_foldl_alter by apply NoDup_fst_map_to_list.
  rewrite lookup_fmap. case_decide as Hin; [done|].
  destruct (bs !! n) as [b|] eqn:Hb; [|done].
  exfalso. apply Hin, list_elem_of_fmap. exists (n, b).
  split; [done|]. by apply elem_of_map_to_list.
Qed.

Lemma configure_state_twice (st st' : TkState) (bs : gmap string Button.t) :
  Button.configure_state st' <$> (Button.configure_state st <$> bs)
  = Button.configure_state st' <$> bs.
Proof. rewrite <-map_fmap_compose. by apply map_fmap_ext. Qed.

Lemma configure_state_same (b : Button.t) :
  Button.configure_state (Button.state b) b = b.
Proof. by destruct b. Qed.

(** C4, as the code has it: locking and then unlocking leaves every
    registered button in state normal, whatever its state was before, and
    changes nothing else of the navbar; so the pair gives back the navbar it
    started from exactly when every button was normal before the lock. *)
Theorem lock_unlock_navbar (nb : NavBar.t) :
  let nb' := NavBar.unlock_navbar (NavBar.lock_navbar nb) in
  (∀ n, NavBar.buttons nb' !! n
        = Button.configure_state normal <$> NavBar.buttons nb !! n) ∧
  NavBar.with_buttons (NavBar.buttons nb) nb' = nb ∧
  (nb' = nb ↔ ∀ n b, NavBar.buttons nb !! n = Some b → Button.state b = normal).
Proof.
  assert (Hbs : NavBar.buttons (NavBar.unlock_navbar (NavBar.lock_navbar nb))
                = Button.configure_state normal <$> NavBar.buttons nb).
  { simpl. rewrite !set_all_states_fmap. apply configure_state_twice. }
  cbv zeta. split_and!.
  - intros n. by rewrite Hbs, lookup_fmap.
  - by destruct nb.
  - split.
    + intros Heq n b Hn.
      assert (Hl : NavBar.buttons (NavBar.unlock_navbar (NavBar.lock_navbar nb)) !! n
                   = Some b) by (by rewrite Heq).
      rewrite Hbs, lookup_fmap, Hn in Hl. simpl in Hl.
      injection Hl as Hl. by rewrite <-Hl.
    + intros Hall.
      assert (Hid : Button.configure_state normal <$> NavBar.buttons nb
                    = NavBar.buttons nb).
      { apply map_eq; intros n. rewrite lookup_fmap.
        destruct (NavBar.buttons nb !! n) as [b|] eqn:Hn; [|done]. simpl.
        by rewrite <-(Hall n b Hn), configure_state_same. }
      destruct nb as [nm bs ti de me]. simpl in *.
      unfold NavBar.unlock_navbar, NavBar.lock_navbar, NavBar.update_idletasks,
        NavBar.with_buttons; simpl.
      by rewrite !set_all_states_fmap, configure_state_twice, Hid.
Qed.

(** C4, as the claim states it, fails: a navbar that is already locked has
    its Home button disabled, and lock followed by unlock leaves that button
    normal. *)
Lemma lock_unlock_navbar_not_restoring :
  let nb := NavBar.lock_navbar (NavBar.init (make_settings "0.0")) in
  Button.state <$> NavBar.buttons nb !! "Home" = Some disabled ∧
  Button.state <$> NavBar.buttons (NavBar.unlock_navbar (NavBar.lock_navbar nb)) !! "Home"
  = Some normal ∧
  NavBar.unlock_navbar (NavBar.lock_navbar nb) ≠ nb.
Proof.
  cbv zeta. split_and!; [by vm_compute | by vm_compute |].
  intros Heq.
  assert (Hl : Button.state <$>
                 NavBar.buttons (NavBar.unlock_navbar (NavBar.lock_navbar
                   (NavBar.lock_navbar (NavBar.init (make_settings "0.0"))))) !! "Home"
               = Button.state <$>
                   NavBar.buttons (NavBar.lock_navbar (NavBar.init (make_settings "0.0")))
                   !! "Home") by (by rewrite Heq).
  vm_compute in Hl. discriminate.
Qed.

(** C6: on a freshly constructed navbar, [update_desc text] leaves the
    description field showing [text] and disabled, so that it takes no
    further insertion; the rest of the navbar is as constructed. *)
Theorem update_desc_fresh (settings : Settings) (text : string) :
  let nb := NavBar.update_desc text (NavBar.init settings) in
  Text.content (NavBar.desc nb) = text ∧
  Text.state (NavBar.desc nb) = disabled ∧
  (∀ chars, Text.insert_1_0 chars (NavBar.desc nb) = NavBar.desc nb) ∧
  NavBar.with_desc (NavBar.desc (NavBar.init settings)) nb = NavBar.init settings.
Proof.
  cbv zeta. split_and!; try done.
  simpl. apply append_empty_r.
Qed.

(** ** SubTable *)


Lemma SubTable_init_well_formed : SubTable.well_formed SubTable.init.
Proof. split; eexists; reflexivity. Qed.










(** ** Controller: construction *)

Lemma register_page_spec (F : PageClass) (app : App) :
  register_page F app
  = (Ok tt,
     with_frames (<[F := length (instances app)]> (frames app))
       (with_stacking (stacking app ++ [length (instances app)])
          (with_instances
             (instances app ++ [mkFrame F (construct F (settings app)) (Some (0, 0, "nsew"))])
             app))).
Proof.
  destruct app as [se ins st fr ps da qu out].
  unfold register_page, mbind, M_bind, new_frame, setitem_frames, getitem_frames,
    grid, on_frame, modify, with_frames, with_stacking, with_instances; simpl.
  rewrite lookup_insert_eq; simpl.
  rewrite list_lookup_middle by done; simpl.
  do 3 f_equal.
  rewrite insert_app_r_alt, Nat.sub_diag by done. done.
Qed.

(** The constructor's loop returns normally: it appends one gridded frame
    per list element, in list order, each on top of the ones before, and
    registers each under its class. *)
Lemma for_register_page_spec (ps : list PageClass) (app : App) :
  ∃ fr',
    for_ ps register_page app
    = (Ok tt,
       with_frames fr'
         (with_stacking (stacking app ++ seq (length (instances app)) (length ps))
            (with_instances
               (instances app ++
                  ((λ F, mkFrame F (construct F (settings app)) (Some (0, 0, "nsew"))) <$> ps))
               app))) ∧
    (∀ F, F ∉ ps → fr' !! F = frames app !! F) ∧
    (∀ F, F ∈ ps → ∃ i, fr' !! F = Some (length (instances app) + i) ∧ ps !! i = Some F).
Proof.
  revert app. induction ps as [|G ps IH]; intros app.
  - exists (frames app). split_and!; [|done|by intros F ?%not_elem_of_nil].
    destruct app; simpl. unfold with_frames, with_stacking, with_instances; simpl.
    by rewrite !app_nil_r.
  - simpl. unfold mbind, M_bind at 1. rewrite register_page_spec.
    destruct (IH (with_frames (<[G := length (instances app)]> (frames app))
                    (with_stacking (stacking app ++ [length (instances app)])
                       (with_instances
                          (instances app ++
                             [mkFrame G (construct G (settings app)) (Some (0, 0, "nsew"))])
                          app)))) as (fr' & Hrun & Hout & Hin).
    exists fr'. rewrite Hrun. clear Hrun IH.
    destruct app as [se ins st fr pg da qu out]; simpl in *.
    rewrite length_app in *; simpl in *.
    split_and!.
    + unfold with_frames, with_stacking, with_instances; simpl.
      rewrite <-!app_assoc; simpl. by rewrite Nat.add_1_r.
    + intros F [HFG HF]%not_elem_of_cons.
      rewrite (Hout F HF). by rewrite lookup_insert_ne.
    + intros F HF. destruct (decide (F ∈ ps)) as [HFin|HFnot].
      * destruct (Hin F HFin) as (i & Hi & Hps).
        exists (S i). split; [|done]. rewrite Hi. f_equal. lia.
      * apply elem_of_cons in HF as [->|HF]; [|done].
        exists 0. split; [|done]. rewrite (Hout G HFnot).
        rewrite lookup_insert_eq. f_equal. lia.
Qed.


Lemma raise_in_filter (f : nat) (l : list nat) (g : nat) :
  f ∈ l → (g ∈ filter (λ h, h ≠ f) l ++ [f] ↔ g ∈ l).
Proof.
  intros Hf. rewrite elem_of_app, list_elem_of_filter, list_elem_of_singleton.
  destruct (decide (g = f)) as [->|Hne].
  - split; [done | by right].
  - split; [by intros [[_ ?]|?] | by left].
Qed.

(** Construction from a non-empty list returns normally, and this is the
    object it leaves. *)
Lemma Controller_init_spec (F0 : PageClass) (rest : list PageClass) (version : string) :
  let ps := F0 :: rest in
  let s := make_settings version in
  ∃ fr f0,
    Controller_init ps version
    = (Ok tt,
       {| settings := s;
          instances := (λ F, mkFrame F (construct F s) (Some (0, 0, "nsew"))) <$> ps;
          stacking := filter (λ g, g ≠ f0) (seq 0 (length ps)) ++ [f0];
          frames := fr;
          pages := ps;
          data := Some {[ "df" := ∅; "inputs" := ∅; "conn" := ∅ ]};
          queue := Some (mkQueue 10 []);
          stdout := [PageTemplate.name (construct F0 s)] |}) ∧
    fr !! F0 = Some f0 ∧ ps !! f0 = Some F0 ∧
    (∀ F, F ∉ ps → fr !! F = None) ∧
    (∀ F, F ∈ ps → ∃ i, fr !! F = Some i ∧ ps !! i = Some F).
Proof.
  intros ps s.
  destruct (for_register_page_spec ps (with_pages ps (with_frames ∅ (Tk_init s))))
    as (fr & Hrun & Hout & Hin).
  destruct (Hin F0) as (f0 & Hf0 & Hps); [by left|].
  simpl in Hf0, Hout, Hin.
  exists fr, f0. split_and!; try done.
  - cbv beta iota delta [Controller_init mbind M_bind modify gets].
    fold s. change (pages (with_pages ps (with_frames ∅ (Tk_init s)))) with ps.
    rewrite Hrun. clear Hrun.
    cbv beta iota delta [getitem_pages show_frame mbind M_bind getitem_frames
                           tkraise on_enter with_frames with_stacking with_instances
                           with_pages with_stdout with_data with_queue Tk_init
                           frames stacking instances pages settings stdout data queue].
    change (ps !! 0) with (Some F0). cbv beta iota. rewrite Hf0. cbv beta iota.
    assert (Hlt : f0 < length ps) by (apply lookup_lt_is_Some; eauto).
    change ([] ++ seq (length []) (length ps)) with (seq 0 (length ps)).
    rewrite decide_True by (apply elem_of_seq; lia).
    rewrite app_nil_l, list_lookup_fmap, Hps. done.
Qed.


Lemma classes_of_instances (s : Settings) (ps : list PageClass) :
  cls <$> ((λ F, mkFrame F (construct F s) (Some (0, 0, "nsew"))) <$> ps) = ps.
Proof. induction ps as [|F ps IH]; [done|]. by rewrite !fmap_cons, IH. Qed.

Lemma count_of_instances (s : Settings) (ps : list PageClass) (F : PageClass) :
  length (filter (λ fr, cls fr = F)
            ((λ F, mkFrame F (construct F s) (Some (0, 0, "nsew"))) <$> ps))
  = length (filter (λ G, G = F) ps).
Proof.
  induction ps as [|G ps IH]; [done|].
  rewrite fmap_cons, !filter_cons. simpl.
  destruct (decide (G = F)); simpl; by rewrite IH.
Qed.

Lemma count_absent (ps : list PageClass) (F : PageClass) :
  F ∉ ps → length (filter (λ G, G = F) ps) = 0.
Proof.
  induction ps as [|G ps IH]; [done|].
  intros [Hne Hnot]%not_elem_of_cons.
  rewrite filter_cons_False by done. by apply IH.
Qed.

Lemma count_NoDup (ps : list PageClass) (F : PageClass) :
  NoDup ps → F ∈ ps → length (filter (λ G, G = F) ps) = 1.
Proof.
  induction 1 as [|G ps Hnot Hnd IH]; [by intros ?%not_elem_of_nil|].
  intros [->|Hin]%elem_of_cons.
  - rewrite filter_cons_True by done. simpl. by rewrite count_absent.
  - rewrite filter_cons_False; [by apply IH|]. by intros ->.
Qed.

Lemma visible_after_raise (app : App) (f : nat) (st : list nat) :
  gridded app f = true →
  last (filter (λ g, gridded app g = true) (st ++ [f])) = Some f.
Proof.
  intros Hg. rewrite filter_app, filter_cons_True by done.
  rewrite filter_nil. apply last_snoc.
Qed.

(** C2, amended to lists without repetition: construction from a
    non-empty list of pairwise different page classes returns normally;
    the frame objects are one per list element, created in list order, so
    exactly one per supplied class and none of any other class; each class
    is registered to its own frame; and the frame of the first class is the
    top of the stacking order and the visible one, its [on_enter] having
    run once. *)
Theorem Controller_init_distinct (F0 : PageClass) (rest : list PageClass) (version : string) :
  NoDup (F0 :: rest) →
  let ps := F0 :: rest in
  let app := (Controller_init ps version).2 in
  (Controller_init ps version).1 = Ok tt ∧
  cls <$> instances app = ps ∧
  (∀ F, F ∈ ps → count_instances F app = 1) ∧
  (∀ F, F ∉ ps → count_instances F app = 0) ∧
  (∀ i F, ps !! i = Some F → frames app !! F = Some i) ∧
  last (stacking app) = Some 0 ∧
  visible app = Some 0 ∧
  stdout app = [PageTemplate.name (construct F0 (make_settings version))].
Proof.
  intros Hnd ps app.
  destruct (Controller_init_spec F0 rest version) as (fr & f0 & Hrun & Hf0 & Hps & Hout & Hin).
  assert (f0 = 0) as -> by (by eapply (NoDup_lookup ps f0 0 F0)).
  subst app. fold ps in Hrun, Hnd, Hout, Hin, Hps. clearbody ps.
  rewrite Hrun. unfold count_instances, visible. simpl.
  split_and!.
  - done.
  - apply classes_of_instances.
  - intros F HF. rewrite count_of_instances. by apply count_NoDup.
  - intros F HF. rewrite count_of_instances. by apply count_absent.
  - intros i F Hi. destruct (Hin F) as (j & Hj & Hpsj).
    { by eapply list_elem_of_lookup_2. }
    rewrite Hj. f_equal. by eapply (NoDup_lookup ps j i F).
  - apply last_snoc.
  - apply visible_after_raise. unfold gridded. simpl.
    by rewrite list_lookup_fmap, Hps.
  - done.
Qed.


(** C10: construction from the empty list fails with an index error, raised
    by [pages[0]] after the loop has made no frame and before [data] and
    [queue] are assigned; construction returns normally exactly for the
    non-empty lists. *)
Theorem Controller_init_empty (version : string) :
  (Controller_init [] version).1 = Raise IndexError ∧
  instances (Controller_init [] version).2 = [] ∧
  frames (Controller_init [] version).2 = ∅ ∧
  stdout (Controller_init [] version).2 = [] ∧
  data (Controller_init [] version).2 = None ∧
  queue (Controller_init [] version).2 = None ∧
  (∀ ps, (Controller_init ps version).1 = Ok tt ↔ ps ≠ []).
Proof.
  split_and!; try reflexivity.
  intros [|F0 rest].
  - split; [discriminate | done].
  - destruct (Controller_init_spec F0 rest version) as (fr & f0 & Hrun & _).
    by rewrite Hrun.
Qed.

Lemma Controller_init_well_formed (ps : list PageClass) (version : string) :
  well_formed (Controller_init ps version).2.
Proof.
  destruct ps as [|F0 rest].
  - split; simpl.
    + intros F f Hf. by rewrite lookup_empty in Hf.
    + intros f. split; [by intros ?%not_elem_of_nil | lia].
  - destruct (Controller_init_spec F0 rest version)
      as (fr & f0 & Hrun & Hf0 & Hps & Hout & Hin).
    rewrite Hrun. remember (F0 :: rest) as ps eqn:Heq. clear Heq.
    assert (Hlt : f0 < length ps) by (apply lookup_lt_is_Some; eauto).
    split; simpl.
    + intros F f Hf. destruct (decide (F ∈ ps)) as [HF|HF].
      * destruct (Hin F HF) as (i & Hi & Hpsi).
        assert (i = f) as -> by congruence.
        eexists. rewrite list_lookup_fmap, Hpsi. by split_and!.
      * rewrite (Hout F HF) in Hf. discriminate.
    + intros g. rewrite raise_in_filter by (apply elem_of_seq; lia).
      rewrite elem_of_seq, length_fmap. lia.
Qed.

(** ** Controller: show_frame *)

(** C1: in a well-formed application, [show_frame] of a registered class
    returns normally; it moves that class's frame to the top of the stacking
    order, keeping the order of the other frames, which makes it the
    visible frame, and it runs that frame's [on_enter] once: one line, the
    page's name, is printed. *)
Theorem show_frame_registered (app : App) (cont : PageClass) (f : nat) :
  well_formed app →
  frames app !! cont = Some f →
  ∃ fr,
    instances app !! f = Some fr ∧ cls fr = cont ∧
    show_frame cont app
    = (Ok tt,
       with_stdout (PageTemplate.on_enter (page fr) (stdout app))
         (with_stacking (filter (λ g, g ≠ f) (stacking app) ++ [f]) app)) ∧
    last (stacking (show_frame cont app).2) = Some f ∧
    visible (show_frame cont app).2 = Some f ∧
    stdout (show_frame cont app).2 = stdout app ++ [PageTemplate.name (page fr)].
Proof.
  intros [Hfr Hst] Hf.
  destruct (Hfr cont f Hf) as (fr & Hins & Hcls & Hgrid).
  assert (Hin : f ∈ stacking app).
  { apply Hst, lookup_lt_is_Some. eauto. }
  assert (Hrun : show_frame cont app
                 = (Ok tt,
                    with_stdout (PageTemplate.on_enter (page fr) (stdout app))
                      (with_stacking (filter (λ g, g ≠ f) (stacking app) ++ [f]) app))).
  { unfold show_frame, mbind, M_bind, getitem_frames, tkraise, on_enter.
    rewrite Hf, decide_True by done. simpl. by rewrite Hins. }
  exists fr. rewrite Hrun. split_and!; try done.
  - apply last_snoc.
  - unfold visible. simpl.
    rewrite (list_filter_iff _ (λ g, gridded app g = true)) by done.
    apply visible_after_raise. unfold gridded. rewrite Hins.
    by apply bool_decide_eq_true.
Qed.

(** C9: [show_frame] of a class that is not registered raises the key
    error of the dictionary lookup and leaves the application as it was: no
    frame is raised and no [on_enter] runs. *)
Theorem show_frame_unregistered (app : App) (cont : PageClass) :
  frames app !! cont = None →
  show_frame cont app = (Raise KeyError, app).
Proof.
  intros Hf. unfold show_frame, mbind, M_bind, getitem_frames. by rewrite Hf.
Qed.


(** ** Controller: what the calls leave alone *)

Lemma app_eta (app : App) :
  with_stdout (stdout app) (with_stacking (stacking app) (with_instances (instances app) app))
  = app.
Proof. by destruct app. Qed.

Lemma insert_same_proj {A B} (g : A → B) (l : list A) (i : nat) (x y : A) :
  l !! i = Some y → g x = g y → g <$> <[i := x]> l = g <$> l.
Proof.
  intros Hl Hg. rewrite list_fmap_insert. apply list_insert_id.
  by rewrite list_lookup_fmap, Hl, Hg.
Qed.

Lemma only_widgets_refl (app : App) : only_widgets app app.
Proof.
  exists (instances app), (stacking app), (stdout app).
  by rewrite app_eta.
Qed.

Lemma show_frame_only_widgets (cont : PageClass) (app : App) :
  only_widgets app (show_frame cont app).2.
Proof.
  unfold show_frame, mbind, M_bind, getitem_frames, tkraise, on_enter.
  destruct (frames app !! cont) as [f|]; [|apply only_widgets_refl].
  destruct (decide (f ∈ stacking app)) as [Hin|]; [|apply only_widgets_refl].
  simpl.
  destruct (instances app !! f) as [fr|]; simpl.
  - exists (instances app), (filter (λ g, g ≠ f) (stacking app) ++ [f]),
      (PageTemplate.on_enter (page fr) (stdout app)).
    split_and!; [by destruct app | done | done | by intros g; apply raise_in_filter].
  - exists (instances app), (filter (λ g, g ≠ f) (stacking app) ++ [f]), (stdout app).
    split_and!; [by destruct app | done | done | by intros g; apply raise_in_filter].
Qed.

Lemma on_enter_only_widgets (f : nat) (app : App) :
  only_widgets app (on_enter f app).2.
Proof.
  unfold on_enter. destruct (instances app !! f) as [fr|]; [|apply only_widgets_refl].
  exists (instances app), (stacking app), (PageTemplate.on_enter (page fr) (stdout app)).
  split_and!; [by destruct app | done..].
Qed.

Lemma on_page_only_widgets (f : nat) (method : PageTemplate.t → PageTemplate.t) (app : App) :
  only_widgets app (on_page f method app).2.
Proof.
  unfold on_page, on_frame.
  destruct (instances app !! f) as [fr|] eqn:Hf; [|apply only_widgets_refl].
  exists (<[f := with_page (method (page fr)) fr]> (instances app)),
    (stacking app), (stdout app).
  split_and!; [by destruct app | by eapply insert_same_proj..| done].
Qed.

Lemma edit_table_at_only_widgets (f : nat) (key : string) (df : DataFrame) (app : App) :
  only_widgets app (edit_table_at f key df app).2.
Proof.
  unfold edit_table_at.
  destruct (instances app !! f) as [fr|] eqn:Hf; [|apply only_widgets_refl].
  destruct (PageTemplate.subtables (page fr) !! key) as [st|]; [|apply only_widgets_refl].
  destruct (SubTable.edit_table df st) as [out st'].
  exists (<[f := with_page (PageTemplate.with_subtables
                              (<[key := st']> (PageTemplate.subtables (page fr)))
                              (page fr)) fr]> (instances app)),
    (stacking app), (stdout app).
  split_and!; [by destruct app | by eapply insert_same_proj..| done].
Qed.

Lemma click_only_widgets (f : nat) (n : string) (app : App) :
  only_widgets app (click f n app).2.
Proof.
  unfold click.
  destruct (instances app !! f) as [fr|]; [|apply only_widgets_refl].
  destruct (NavBar.buttons (PageTemplate.navbar (page fr)) !! n) as [b|];
    [|apply only_widgets_refl].
  destruct (Button.command b).
  destruct (Button.state b);
    [apply show_frame_only_widgets..| apply only_widgets_refl].
Qed.

Lemma step_only_widgets (op : Op) (app : App) : only_widgets app (step op app).2.
Proof.
  destruct op; simpl;
    first [ apply show_frame_only_widgets | apply on_enter_only_widgets
          | apply on_page_only_widgets | apply edit_table_at_only_widgets
          | apply click_only_widgets ].
Qed.


Lemma only_widgets_trans (a b c : App) :
  only_widgets a b → only_widgets b c → only_widgets a c.
Proof.
  intros (ins & st & out & -> & Hc & Hg & Hs) (ins' & st' & out' & -> & Hc' & Hg' & Hs').
  exists ins', st', out'. simpl in *.
  split_and!; [by destruct a | congruence | congruence |].
  intros g. by rewrite Hs'.
Qed.

Lemma exec_only_widgets (ops : list Op) (app : App) : only_widgets app (exec ops app).
Proof.
  revert app. induction ops as [|op ops IH]; intros app; [apply only_widgets_refl|].
  eapply only_widgets_trans; [apply (step_only_widgets op)|apply IH].
Qed.

Lemma only_widgets_attrs (app app' : App) :
  only_widgets app app' →
  settings app' = settings app ∧ frames app' = frames app ∧ pages app' = pages app ∧
  data app' = data app ∧ queue app' = queue app ∧
  cls <$> instances app' = cls <$> instances app.
Proof. by intros (ins & st & out & -> & Hc & Hg & Hs). Qed.

Lemma only_widgets_well_formed (app app' : App) :
  only_widgets app app' → well_formed app → well_formed app'.
Proof.
  intros (ins & st & out & -> & Hc & Hg & Hs) [Hfr Hst]. split; simpl.
  - intros F f Hf. destruct (Hfr F f Hf) as (fr & Hins & Hcls & Hgrid).
    assert (Hc' : (cls <$> ins) !! f = Some F)
      by (by rewrite Hc, list_lookup_fmap, Hins, <-Hcls).
    assert (Hg' : (grid_info <$> ins) !! f = Some (grid_info fr))
      by (by rewrite Hg, list_lookup_fmap, Hins).
    rewrite list_lookup_fmap in Hc'. rewrite list_lookup_fmap in Hg'.
    destruct (ins !! f) as [fr'|]; [|done]. simpl in *.
    exists fr'. split_and!; [done | congruence |].
    injection Hg' as ->. done.
  - intros g. rewrite Hs, Hst.
    by rewrite <-(length_fmap cls ins), Hc, length_fmap.
Qed.

(** Every state an application reaches is well-formed. *)
Lemma reachable_well_formed (ps : list PageClass) (version : string) (ops : list Op) :
  well_formed (exec ops (Controller_init ps version).2).
Proof.
  eapply only_widgets_well_formed;
    [apply exec_only_widgets | apply Controller_init_well_formed].
Qed.

(** C7: the registry written by the constructor holds exactly the supplied
    classes, and no sequence of calls changes it: after any calls it is the
    registry the constructor left, every registered class still names a
    live frame object of that class, and the frame objects are those the
    constructor made, one per list element; a single call, [show_frame]
    included, never changes the registry of any application state. *)
Theorem frames_fixed (ps : list PageClass) (version : string) (ops : list Op) :
  let app0 := (Controller_init ps version).2 in
  let app := exec ops app0 in
  (∀ F, is_Some (frames app0 !! F) ↔ F ∈ ps) ∧
  frames app = frames app0 ∧
  (∀ F f, frames app !! F = Some f →
          ∃ fr, instances app !! f = Some fr ∧ cls fr = F) ∧
  cls <$> instances app = ps ∧
  (∀ op app1, frames (step op app1).2 = frames app1).
Proof.
  intros app0 app.
  pose proof (exec_only_widgets ops app0) as Hex. fold app in Hex.
  pose proof (only_widgets_attrs _ _ Hex) as (_ & Hframes & _ & _ & _ & Hcls).
  pose proof (only_widgets_well_formed _ _ Hex
                (Controller_init_well_formed ps version)) as [Hwf _].
  split_and!.
  - subst app0. destruct ps as [|F0 rest].
    + intros F. simpl. rewrite lookup_empty. split; [by intros [? ?]|].
      by intros ?%not_elem_of_nil.
    + destruct (Controller_init_spec F0 rest version)
        as (fr & f0 & Hrun & Hf0 & Hps & Hout & Hin).
      rewrite Hrun. simpl. intros F. split.
      * intros [f Hf]. destruct (decide (F ∈ F0 :: rest)) as [|Hnot]; [done|].
        rewrite (Hout F Hnot) in Hf. discriminate.
      * intros HF. destruct (Hin F HF) as (i & Hi & _). eauto.
  - done.
  - intros F f Hf. destruct (Hwf F f Hf) as (fr & ? & ? & _). eauto.
  - rewrite Hcls. subst app0. destruct ps as [|F0 rest]; [done|].
    destruct (Controller_init_spec F0 rest version) as (fr & f0 & Hrun & _).
    rewrite Hrun. apply classes_of_instances.
  - intros op app1.
    by destruct (only_widgets_attrs _ _ (step_only_widgets op app1)) as (_ & ? & _).
Qed.

Lemma step_ignores_data_queue (op : Op) (app : App)
    (d : option (gmap string (gmap string Value))) (q : option (Queue Value)) :
  step op (with_queue q (with_data d app))
  = ((step op app).1, with_queue q (with_data d (step op app).2)).
Proof.
  destruct app as [se ins st fr pg da qu out].
  destruct op; simpl;
    unfold click, run_command, on_navbar, on_page, on_frame, edit_table_at,
      show_frame, mbind, M_bind, getitem_frames, tkraise, on_enter,
      with_queue, with_data, with_instances, with_stacking, with_stdout; simpl;
    repeat (case_match; simplify_eq/=; try done).
Qed.

Lemma exec_ignores_data_queue (ops : list Op) (app : App)
    (d : option (gmap string (gmap string Value))) (q : option (Queue Value)) :
  exec ops (with_queue q (with_data d app)) = with_queue q (with_data d (exec ops app)).
Proof.
  revert app. induction ops as [|op ops IH]; intros app; [done|].
  change (exec ops (step op (with_queue q (with_data d app))).2
          = with_queue q (with_data d (exec ops (step op app).2))).
  rewrite step_ignores_data_queue. apply IH.
Qed.

(** C8: after construction [data] is a dictionary of exactly the three keys
    df, inputs and conn, each holding an empty dictionary, and [queue] is an
    empty queue of capacity 10.  No call writes them: after any sequence of
    calls both are as constructed.  No call reads them: whatever they held
    instead, every call would return the same outcome and leave the same
    state apart from them. *)
Theorem data_queue_untouched (F0 : PageClass) (rest : list PageClass) (version : string)
    (ops : list Op) :
  let app0 := (Controller_init (F0 :: rest) version).2 in
  (∃ m, data app0 = Some m ∧ size m = 3 ∧
        m !! "df" = Some ∅ ∧ m !! "inputs" = Some ∅ ∧ m !! "conn" = Some ∅) ∧
  queue app0 = Some (mkQueue 10 []) ∧
  data (exec ops app0) = data app0 ∧
  queue (exec ops app0) = queue app0 ∧
  (∀ op app d q,
     data (step op app).2 = data app ∧ queue (step op app).2 = queue app ∧
     step op (with_queue q (with_data d app))
     = ((step op app).1, with_queue q (with_data d (step op app).2))).
Proof.
  intros app0.
  pose proof (only_widgets_attrs _ _ (exec_only_widgets ops app0))
    as (_ & _ & _ & Hdata & Hqueue & _).
  subst app0.
  destruct (Controller_init_spec F0 rest version) as (fr & f0 & Hrun & _).
  rewrite Hrun in *. simpl in *. split_and!; try done.
  - eexists. split; [done|]. by split_and!.
  - intros op app d q.
    destruct (only_widgets_attrs _ _ (step_only_widgets op app)) as (_ & _ & _ & ? & ? & _).
    split_and!; [done | done | apply step_ignores_data_queue].
Qed.


(** ** Further properties: NavBar *)

(** X1: [update_desc] is one-shot on every navbar: it leaves the
    description field disabled, so a second call changes nothing at all, and
    on a navbar whose field is already disabled the text is not inserted. *)
Theorem update_desc_one_shot (nb : NavBar.t) (t1 t2 : string) :
  NavBar.update_desc t2 (NavBar.update_desc t1 nb) = NavBar.update_desc t1 nb ∧
  Text.state (NavBar.desc (NavBar.update_desc t1 nb)) = disabled ∧
  (Text.state (NavBar.desc nb) = disabled →
   Text.content (NavBar.desc (NavBar.update_desc t1 nb)) = Text.content (NavBar.desc nb)) ∧
  (Text.state (NavBar.desc nb) ≠ disabled →
   Text.content (NavBar.desc (NavBar.update_desc t1 nb))
   = t1 +:+ Text.content (NavBar.desc nb)).
Proof.
  destruct nb as [nm bs ti [c st wr wd ht] me].
  split_and!; [by destruct st | done | simpl; by intros -> | by destruct st].
Qed.

(** X2: the description of a Home page is frozen by its constructor: on
    the navbar of a fresh Home page [update_desc] with any text changes
    nothing, whereas on the navbar of a fresh PageTemplate it sets the
    text; the title of either can still be set. *)
Theorem Home_description_frozen (settings : Settings) (text : string) :
  let home := PageTemplate.navbar (Home.init settings) in
  let template := PageTemplate.navbar (PageTemplate.init settings 50) in
  NavBar.update_desc text home = home ∧
  Text.content (NavBar.desc home) = "Hello, world" ∧
  Text.content (NavBar.desc (NavBar.update_desc text template)) = text ∧
  Label.text (NavBar.title (NavBar.update_title text home)) = text ∧
  NavBar.desc (NavBar.update_title text home) = NavBar.desc home.
Proof.
  cbv zeta. split_and!; try done.
  simpl. apply append_empty_r.
Qed.


(** X4: [lock_navbar] disables every registered button and nothing else:
    the same button names stay registered, each button keeps its text,
    command and colour, and title, description and message are untouched.
    Locking is idempotent, and a lock after an unlock, or an unlock after an
    unlock, is the same as the last call alone. *)
Theorem lock_navbar_disables (nb : NavBar.t) :
  (∀ n, NavBar.buttons (NavBar.lock_navbar nb) !! n
        = Button.configure_state disabled <$> NavBar.buttons nb !! n) ∧
  dom (NavBar.buttons (NavBar.lock_navbar nb)) = dom (NavBar.buttons nb) ∧
  (∀ n b, NavBar.buttons (NavBar.lock_navbar nb) !! n = Some b →
          Button.state b = disabled) ∧
  NavBar.with_buttons (NavBar.buttons nb) (NavBar.lock_navbar nb) = nb ∧
  NavBar.lock_navbar (NavBar.lock_navbar nb) = NavBar.lock_navbar nb ∧
  NavBar.lock_navbar (NavBar.unlock_navbar nb) = NavBar.lock_navbar nb ∧
  NavBar.unlock_navbar (NavBar.unlock_navbar nb) = NavBar.unlock_navbar nb.
Proof.
  assert (Hl : ∀ x, NavBar.lock_navbar x
                    = NavBar.with_buttons
                        (Button.configure_state disabled <$> NavBar.buttons x) x).
  { intros x. unfold NavBar.lock_navbar, NavBar.update_idletasks.
    by rewrite set_all_states_fmap. }
  assert (Hu : ∀ x, NavBar.unlock_navbar x
                    = NavBar.with_buttons
                        (Button.configure_state normal <$> NavBar.buttons x) x).
  { intros x. unfold NavBar.unlock_navbar, NavBar.update_idletasks.
    by rewrite set_all_states_fmap. }
  split_and!.
  - intros n. by rewrite Hl, <-lookup_fmap.
  - rewrite Hl. simpl. apply dom_fmap_L.
  - intros n b. rewrite Hl. simpl. rewrite lookup_fmap.
    destruct (NavBar.buttons nb !! n) as [b'|]; [|done].
    simpl. by intros [= <-].
  - by destruct nb.
  - rewrite !Hl. destruct nb; unfold NavBar.with_buttons; simpl.
    by rewrite configure_state_twice.
  - rewrite !Hl, Hu. destruct nb; unfold NavBar.with_buttons; simpl.
    by rewrite configure_state_twice.
  - rewrite !Hu. destruct nb; unfold NavBar.with_buttons; simpl.
    by rewrite configure_state_twice.
Qed.


(** ** Further properties: navigation *)

Lemma show_frame_run (app : App) (cont : PageClass) (f : nat) :
  well_formed app →
  frames app !! cont = Some f →
  ∃ fr,
    instances app !! f = Some fr ∧ cls fr = cont ∧ gridded app f = true ∧
    f ∈ stacking app ∧
    show_frame cont app
    = (Ok tt,
       with_stdout (stdout app ++ [PageTemplate.name (page fr)])
         (with_stacking (filter (λ g, g ≠ f) (stacking app) ++ [f]) app)).
Proof.
  intros [Hfr Hst] Hf.
  destruct (Hfr cont f Hf) as (fr & Hins & Hcls & Hgrid).
  assert (Hin : f ∈ stacking app) by (apply Hst, lookup_lt_is_Some; eauto).
  exists fr. split_and!; try done.
  - unfold gridded. rewrite Hins. by apply bool_decide_eq_true.
  - unfold show_frame, mbind, M_bind, getitem_frames, tkraise, on_enter.
    rewrite Hf, decide_True by done. simpl. by rewrite Hins.
Qed.

Lemma show_frame_missing (app : App) (cont : PageClass) :
  frames app !! cont = None → show_frame cont app = (Raise KeyError, app).
Proof.
  intros Hf. unfold show_frame, mbind, M_bind, getitem_frames. by rewrite Hf.
Qed.

Lemma visible_raised (app : App) (f : nat) (out : list string) :
  gridded app f = true →
  visible (with_stdout out
             (with_stacking (filter (λ g, g ≠ f) (stacking app) ++ [f]) app))
  = Some f.
Proof. intros Hg. unfold visible. simpl. by apply visible_after_raise. Qed.

(** X5: a locked page ignores its navbar: after [lock] on a page frame, a
    click on any of its registered buttons returns normally and changes
    nothing, so no navigation happens until [unlock]. *)
Theorem locked_page_ignores_clicks (app : App) (f : nat) (fr : Frame) (n : string) :
  instances app !! f = Some fr →
  is_Some (NavBar.buttons (PageTemplate.navbar (page fr)) !! n) →
  (step (Call_lock f) app).1 = Ok tt ∧
  step (Click f n) (step (Call_lock f) app).2 = (Ok tt, (step (Call_lock f) app).2).
Proof.
  intros Hf [b Hb].
  assert (Hlt : f < length (instances app)) by (apply lookup_lt_is_Some; eauto).
  simpl. unfold on_page, on_frame. rewrite Hf. simpl. split; [done|].
  unfold click. simpl. rewrite list_lookup_insert_eq by done. simpl.
  rewrite set_all_states_fmap, lookup_fmap, Hb. done.
Qed.

(** X6: the Home button navigates: in a well-formed application with Home
    registered, a click on an enabled Home button of any page frame returns
    normally, makes the Home frame the visible one and runs its [on_enter]
    once. *)
Theorem click_Home_shows_Home (app : App) (f h : nat) (fr : Frame) (b : Button.t) :
  well_formed app →
  instances app !! f = Some fr →
  NavBar.buttons (PageTemplate.navbar (page fr)) !! "Home" = Some b →
  Button.state b ≠ disabled →
  frames app !! Home_cls = Some h →
  ∃ hfr,
    instances app !! h = Some hfr ∧ cls hfr = Home_cls ∧
    (step (Click f "Home") app).1 = Ok tt ∧
    visible (step (Click f "Home") app).2 = Some h ∧
    last (stacking (step (Click f "Home") app).2) = Some h ∧
    stdout (step (Click f "Home") app).2 = stdout app ++ [PageTemplate.name (page hfr)] ∧
    instances (step (Click f "Home") app).2 = instances app.
Proof.
  intros Hwf Hf Hb Hst Hh.
  destruct (show_frame_run app Home_cls h Hwf Hh) as (hfr & Hins & Hcls & Hg & Hin & Hrun).
  assert (Hclick : step (Click f "Home") app = show_frame Home_cls app).
  { simpl. unfold click. rewrite Hf, Hb.
    destruct (Button.command b). by destruct (Button.state b). }
  exists hfr. rewrite Hclick, Hrun. split_and!; try done.
  - by apply visible_raised.
  - apply last_snoc.
Qed.

(** X7: the navbar is wired to Home whether or not Home is a page of the
    application: when Home is not registered, a click on an enabled Home
    button raises the key error of [show_frame] and changes nothing. *)
Theorem click_Home_without_Home (app : App) (f : nat) (fr : Frame) (b : Button.t) :
  instances app !! f = Some fr →
  NavBar.buttons (PageTemplate.navbar (page fr)) !! "Home" = Some b →
  Button.state b ≠ disabled →
  frames app !! Home_cls = None →
  step (Click f "Home") app = (Raise KeyError, app).
Proof.
  intros Hf Hb Hst Hh. simpl. unfold click. rewrite Hf, Hb.
  destruct (Button.command b). simpl.
  destruct (Button.state b); [by apply show_frame_missing.. | done].
Qed.


(** ** Further properties: construction *)

Lemma for_cons_register_page (G : PageClass) (ps : list PageClass) (app : App) :
  for_ (G :: ps) register_page app
  = for_ ps register_page
      (with_frames (<[G := length (instances app)]> (frames app))
         (with_stacking (stacking app ++ [length (instances app)])
            (with_instances
               (instances app ++ [mkFrame G (construct G (settings app)) (Some (0, 0, "nsew"))])
               app))).
Proof.
  change (for_ (G :: ps) register_page app)
    with ((register_page G;; for_ ps register_page) app).
  unfold mbind, M_bind. by rewrite register_page_spec.
Qed.

(** After the loop a class is registered to the frame made for its last
    occurrence in the list; classes outside the list keep their entry. *)
Lemma for_register_page_frames (ps : list PageClass) (app : App) (F : PageClass) (i : nat) :
  frames (for_ ps register_page app).2 !! F = Some i ↔
    ((F ∉ ps) ∧ frames app !! F = Some i) ∨
    (∃ j, i = length (instances app) + j ∧ ps !! j = Some F ∧
          ∀ k, j < k → ps !! k ≠ Some F).
Proof.
  revert app. induction ps as [|G ps IH]; intros app.
  - simpl. split.
    + intros Hi. left. split; [apply not_elem_of_nil | done].
    + intros [[_ Hi]|(j & _ & Hj & _)]; [done | by rewrite lookup_nil in Hj].
  - rewrite for_cons_register_page, IH. simpl. rewrite length_app. simpl.
    split.
    + intros [[Hnot Hi]|(j & -> & Hj & Hlast)].
      * destruct (decide (F = G)) as [->|Hne].
        -- rewrite lookup_insert_eq in Hi. injection Hi as <-.
           right. exists 0. split_and!; [lia | done |].
           intros [|k] Hk; [lia|]. simpl. intros Hps.
           apply Hnot. by eapply list_elem_of_lookup_2.
        -- rewrite lookup_insert_ne in Hi by done.
           left. split; [|done]. by intros [?|?]%elem_of_cons.
      * right. exists (S j). split_and!; [lia | done |].
        intros [|k] Hk; [lia|]. simpl. apply Hlast. lia.
    + intros [[Hnot Hi]|(j & -> & Hj & Hlast)].
      * apply not_elem_of_cons in Hnot as [Hne Hnot].
        left. split; [done|]. by rewrite lookup_insert_ne.
      * destruct j as [|j]; simpl in Hj.
        -- injection Hj as ->. left. split.
           ++ intros [k Hk]%list_elem_of_lookup_1. by apply (Hlast (S k)); [lia|].
           ++ rewrite lookup_insert_eq. f_equal. lia.
        -- right. exists j. split_and!; [lia | done |].
           intros k Hk. apply (Hlast (S k)). lia.
Qed.

Lemma Controller_init_frames (ps : list PageClass) (version : string) :
  frames (Controller_init ps version).2
  = frames (for_ ps register_page
              (with_pages ps (with_frames ∅ (Tk_init (make_settings version))))).2.
Proof.
  destruct ps as [|F0 rest]; [done|].
  set (ps := F0 :: rest). set (s := make_settings version).
  destruct (for_register_page_spec ps (with_pages ps (with_frames ∅ (Tk_init s))))
    as (fr & Hrun & Hout & Hin).
  destruct (Hin F0) as (f0 & Hf0 & Hps); [by left|].
  simpl in Hf0.
  cbv beta iota delta [Controller_init mbind M_bind modify gets].
  fold s. change (pages (with_pages ps (with_frames ∅ (Tk_init s)))) with ps.
  rewrite Hrun. clear Hrun.
  cbv beta iota delta [getitem_pages show_frame mbind M_bind getitem_frames
                         tkraise on_enter with_frames with_stacking with_instances
                         with_pages with_stdout with_data with_queue Tk_init
                         frames stacking instances pages settings stdout data queue].
  change (ps !! 0) with (Some F0). cbv beta iota. rewrite Hf0. cbv beta iota.
  assert (Hlt : f0 < length ps) by (apply lookup_lt_is_Some; eauto).
  change ([] ++ seq (length []) (length ps)) with (seq 0 (length ps)).
  rewrite decide_True by (apply elem_of_seq; lia).
  rewrite app_nil_l, list_lookup_fmap, Hps. done.
Qed.

(** X8: construction from any non-empty list, repeated classes included:
    it returns normally and makes one gridded frame per list element, in
    list order, each built by its class's constructor from the settings; a
    class is registered to the frame of its last occurrence in the list,
    so the frames of earlier occurrences are in the container but not in
    the registry; the registered frame of the first class is on top and
    visible, and only its [on_enter] has run. *)
Theorem Controller_init_any (F0 : PageClass) (rest : list PageClass) (version : string) :
  let ps := F0 :: rest in
  let r := Controller_init ps version in
  r.1 = Ok tt ∧
  instances r.2
  = (λ F, mkFrame F (construct F (make_settings version)) (Some (0, 0, "nsew"))) <$> ps ∧
  (∀ F i, frames r.2 !! F = Some i ↔
          ps !! i = Some F ∧ ∀ k, i < k → ps !! k ≠ Some F) ∧
  (∃ f0, frames r.2 !! F0 = Some f0 ∧
         last (stacking r.2) = Some f0 ∧ visible r.2 = Some f0) ∧
  stdout r.2 = [PageTemplate.name (construct F0 (make_settings version))].
Proof.
  intros ps r.
  pose proof (Controller_init_frames ps version) as Hframes. fold r in Hframes.
  destruct (Controller_init_spec F0 rest version)
    as (fr & f0 & Hrun & Hf0 & Hps & Hout & Hin).
  fold ps in Hrun, Hps, Hout, Hin. fold r in Hrun.
  clearbody r. clearbody ps.
  split_and!.
  - by rewrite Hrun.
  - by rewrite Hrun.
  - intros F i. rewrite Hframes, for_register_page_frames. simpl. split.
    + intros [[_ Hi]|(j & -> & Hj & Hlast)]; [by rewrite lookup_empty in Hi | done].
    + intros [Hi Hlast]. right. by exists i.
  - exists f0. rewrite Hrun. simpl. split_and!; [done | apply last_snoc |].
    unfold visible. simpl. apply visible_after_raise.
    unfold gridded. simpl. by rewrite list_lookup_fmap, Hps.
  - by rewrite Hrun.
Qed.


(** ** Further properties: a running application *)

Lemma filter_absent (l : list nat) (f : nat) :
  f ∉ l → filter (λ g, g ≠ f) l = l.
Proof.
  induction l as [|a l IH]; [done|].
  intros [Hne Hnot]%not_elem_of_cons.
  rewrite filter_cons_True by done. by rewrite IH.
Qed.

Lemma tkraise_perm (l : list nat) (f : nat) :
  NoDup l → f ∈ l → filter (λ g, g ≠ f) l ++ [f] ≡ₚ l.
Proof.
  induction 1 as [|a l Hnot Hnd IH]; [by intros ?%not_elem_of_nil|].
  intros [->|Hin]%elem_of_cons.
  - rewrite filter_cons_False by (by intros ?).
    rewrite filter_absent by done. symmetry. apply Permutation_cons_append.
  - rewrite filter_cons_True by (by intros ->).
    simpl. by rewrite IH.
Qed.

(** A call leaves the stacking order alone or raises one of its frames. *)
Lemma show_frame_stacking (cont : PageClass) (app : App) :
  stacking (show_frame cont app).2 = stacking app ∨
  ∃ f, f ∈ stacking app ∧
       stacking (show_frame cont app).2 = filter (λ g, g ≠ f) (stacking app) ++ [f].
Proof.
  unfold show_frame, mbind, M_bind, getitem_frames, tkraise, on_enter.
  destruct (frames app !! cont) as [f|]; [|by left].
  destruct (decide (f ∈ stacking app)) as [Hin|]; [|by left].
  right. exists f. split; [done|]. simpl.
  by destruct (instances app !! f).
Qed.

Lemma quiet_step_stacking (op : Op) (app : App) :
  navigates op = false → stacking (step op app).2 = stacking app.
Proof.
  destruct op; try discriminate; intros _; simpl;
    unfold on_navbar, on_page, on_frame, on_enter, edit_table_at;
    repeat (case_match; simpl; try done).
Qed.

Lemma step_stacking (op : Op) (app : App) :
  stacking (step op app).2 = stacking app ∨
  ∃ f, f ∈ stacking app ∧
       stacking (step op app).2 = filter (λ g, g ≠ f) (stacking app) ++ [f].
Proof.
  destruct (navigates op) eqn:Hnav; [|left; by apply quiet_step_stacking].
  destruct op; try discriminate; simpl; [apply show_frame_stacking|].
  unfold click.
  destruct (instances app !! f) as [fr|]; [|by left].
  destruct (NavBar.buttons (PageTemplate.navbar (page fr)) !! n) as [b|]; [|by left].
  destruct (Button.command b).
  destruct (Button.state b); [apply show_frame_stacking..|by left].
Qed.

Lemma exec_stacking_perm (ops : list Op) (app : App) :
  NoDup (stacking app) → stacking (exec ops app) ≡ₚ stacking app.
Proof.
  revert app. induction ops as [|op ops IH]; intros app Hnd; [done|].
  change (stacking (exec ops (step op app).2) ≡ₚ stacking app).
  assert (Hstep : stacking (step op app).2 ≡ₚ stacking app).
  { destruct (step_stacking op app) as [->|(f & Hin & ->)]; [done|].
    by apply tkraise_perm. }
  rewrite IH; [done|]. by rewrite Hstep.
Qed.

Lemma gridded_only_widgets (app app' : App) (f : nat) :
  only_widgets app app' → gridded app' f = gridded app f.
Proof.
  intros (ins & st & out & -> & _ & Hg & _). unfold gridded. simpl.
  assert (Hf : grid_info <$> ins !! f = grid_info <$> instances app !! f)
    by (by rewrite <-!list_lookup_fmap, Hg).
  destruct (ins !! f) as [fr'|], (instances app !! f) as [fr|]; simplify_eq/=; try done.
  by rewrite Hf.
Qed.

Lemma Controller_init_attrs (ps : list PageClass) (version : string) :
  settings (Controller_init ps version).2 = make_settings version ∧
  pages (Controller_init ps version).2 = ps ∧
  instances (Controller_init ps version).2
  = ((λ F, mkFrame F (construct F (make_settings version)) (Some (0, 0, "nsew"))) <$> ps) ∧
  stacking (Controller_init ps version).2 ≡ₚ seq 0 (length ps) ∧
  (∀ F, is_Some (frames (Controller_init ps version).2 !! F) ↔ F ∈ ps).
Proof.
  destruct ps as [|F0 rest].
  - split_and!; try done. intros F. simpl. rewrite lookup_empty. split.
    + by intros [? ?].
    + by intros ?%not_elem_of_nil.
  - destruct (Controller_init_spec F0 rest version)
      as (fr & f0 & Hrun & Hf0 & Hps & Hout & Hin).
    rewrite Hrun. remember (F0 :: rest) as ps eqn:Heq. clear Heq. simpl.
    assert (Hlt : f0 < length ps) by (apply lookup_lt_is_Some; eauto).
    split_and!; try done.
    + apply tkraise_perm; [apply NoDup_seq | apply elem_of_seq; lia].
    + intros F. split.
      * intros [f Hf]. destruct (decide (F ∈ ps)) as [|Hnot]; [done|].
        rewrite (Hout F Hnot) in Hf. discriminate.
      * intros HF. destruct (Hin F HF) as (i & Hi & _). eauto.
Qed.

(** X9: the container never gains, loses or duplicates a frame: in every
    state a constructed application reaches, the stacking order is a
    permutation of the frames made at construction, one per list element,
    and every one of them is still gridded in cell (0, 0), filling it. *)
Theorem stacking_is_permutation (ps : list PageClass) (version : string) (ops : list Op) :
  let app := exec ops (Controller_init ps version).2 in
  stacking app ≡ₚ seq 0 (length ps) ∧
  NoDup (stacking app) ∧
  length (instances app) = length ps ∧
  (∀ f fr, instances app !! f = Some fr → grid_info fr = Some (0, 0, "nsew")).
Proof.
  intros app.
  destruct (Controller_init_attrs ps version) as (_ & _ & Hins & Hperm & _).
  assert (Hnd0 : NoDup (stacking (Controller_init ps version).2))
    by (rewrite Hperm; apply NoDup_seq).
  pose proof (exec_stacking_perm ops _ Hnd0) as Hex. fold app in Hex.
  destruct (exec_only_widgets ops (Controller_init ps version).2)
    as (ins & st & out & Happ & Hc & Hg & _).
  fold app in Happ. rewrite Hins in Hc, Hg.
  assert (Hi : instances app = ins) by (by rewrite Happ).
  split_and!.
  - by rewrite Hex.
  - rewrite Hex, Hperm. apply NoDup_seq.
  - by rewrite Hi, <-(length_fmap cls), Hc, !length_fmap.
  - intros f fr Hf. rewrite Hi in Hf.
    assert (Hgf : (grid_info <$> ins) !! f = Some (grid_info fr))
      by (by rewrite list_lookup_fmap, Hf).
    rewrite Hg, <-list_fmap_compose, list_lookup_fmap in Hgf.
    destruct (ps !! f); simplify_eq/=. done.
Qed.

(** X10: in every state a constructed application reaches, [show_frame]
    returns normally exactly for the classes supplied at construction; for
    any other class it raises the key error and changes nothing. *)
Theorem show_frame_outcome (ps : list PageClass) (version : string) (ops : list Op)
    (cont : PageClass) :
  let app := exec ops (Controller_init ps version).2 in
  (cont ∈ ps → (show_frame cont app).1 = Ok tt) ∧
  (cont ∉ ps → show_frame cont app = (Raise KeyError, app)) ∧
  ((show_frame cont app).1 = Ok tt ↔ cont ∈ ps).
Proof.
  intros app.
  pose proof (reachable_well_formed ps version ops) as Hwf. fold app in Hwf.
  destruct (only_widgets_attrs _ _ (exec_only_widgets ops (Controller_init ps version).2))
    as (_ & Hframes & _).
  fold app in Hframes.
  destruct (Controller_init_attrs ps version) as (_ & _ & _ & _ & Hdom).
  assert (Hin : cont ∈ ps → (show_frame cont app).1 = Ok tt).
  { intros [f Hf]%Hdom. rewrite <-Hframes in Hf.
    destruct (show_frame_run app cont f Hwf Hf) as (fr & _ & _ & _ & _ & Hrun).
    by rewrite Hrun. }
  assert (Hout : cont ∉ ps → show_frame cont app = (Raise KeyError, app)).
  { intros Hnot. apply show_frame_missing. rewrite Hframes.
    destruct (frames (Controller_init ps version).2 !! cont) eqn:Hf; [|done].
    exfalso. apply Hnot, Hdom. eauto. }
  split_and!; [done | done |]. split; [|done].
  intros Hok. destruct (decide (cont ∈ ps)) as [|Hnot]; [done|].
  rewrite (Hout Hnot) in Hok. discriminate.
Qed.

(** X11: only navigation changes what the user sees: a call other than
    [show_frame] and a click ([on_enter], lock, unlock, the navbar mutators,
    [edit_table]) leaves the stacking order, the grid placement and so the
    visible frame as they were, in every state. *)
Theorem quiet_calls_keep_visible (op : Op) (app : App) :
  navigates op = false →
  stacking (step op app).2 = stacking app ∧
  (∀ f, gridded (step op app).2 f = gridded app f) ∧
  visible (step op app).2 = visible app.
Proof.
  intros Hnav.
  pose proof (quiet_step_stacking op app Hnav) as Hst.
  assert (Hg : ∀ f, gridded (step op app).2 f = gridded app f).
  { intros f. apply gridded_only_widgets, step_only_widgets. }
  split_and!; [done | done |].
  unfold visible. rewrite Hst. f_equal. apply list_filter_iff.
  intros f. by rewrite Hg.
Qed.

(** X12: the settings and the page list are fixed at construction: after
    any sequence of calls [settings] is still the version given to the
    constructor with the three Verdana fonts, and [pages] the list given;
    no single call changes either in any state. *)
Theorem settings_pages_fixed (ps : list PageClass) (version : string) (ops : list Op) :
  let app := exec ops (Controller_init ps version).2 in
  settings app = mkSettings version ("Verdana", 12) ("Verdana", 20) ("Verdana", 30) ∧
  pages app = ps ∧
  (∀ op app1, settings (step op app1).2 = settings app1 ∧
              pages (step op app1).2 = pages app1).
Proof.
  intros app.
  destruct (only_widgets_attrs _ _ (exec_only_widgets ops (Controller_init ps version).2))
    as (Hs & _ & Hp & _).
  destruct (Controller_init_attrs ps version) as (Hs0 & Hp0 & _).
  subst app. split_and!; [by rewrite Hs, Hs0 | by rewrite Hp, Hp0 |].
  intros op app1.
  by destruct (only_widgets_attrs _ _ (step_only_widgets op app1)) as (? & _ & ? & _).
Qed.


Lemma show_frame_instances (cont : PageClass) (app : App) :
  instances (show_frame cont app).2 = instances app.
Proof.
  unfold show_frame, mbind, M_bind, getitem_frames, tkraise, on_enter.
  repeat (case_match; simplify_eq/=; try done).
Qed.

Lemma on_page_names (f : nat) (method : PageTemplate.t → PageTemplate.t) (app : App) :
  (∀ p, PageTemplate.name (method p) = PageTemplate.name p) →
  (PageTemplate.name ∘ page) <$> instances (on_page f method app).2
  = (PageTemplate.name ∘ page) <$> instances app.
Proof.
  intros Hname. unfold on_page, on_frame.
  destruct (instances app !! f) as [fr|] eqn:Hf; [|done]. simpl.
  eapply insert_same_proj; [done|]. simpl. apply Hname.
Qed.

(** No call renames a page. *)
Lemma step_names (op : Op) (app : App) :
  (PageTemplate.name ∘ page) <$> instances (step op app).2
  = (PageTemplate.name ∘ page) <$> instances app.
Proof.
  destruct op; simpl; try (by apply on_page_names).
  - by rewrite show_frame_instances.
  - unfold on_enter. by destruct (instances app !! f).
  - unfold edit_table_at.
    destruct (instances app !! f) as [fr|] eqn:Hf; [|done].
    destruct (PageTemplate.subtables (page fr) !! key) as [st|]; [|done].
    destruct (SubTable.edit_table df st) as [out st']. simpl.
    by eapply insert_same_proj.
  - unfold click.
    destruct (instances app !! f) as [fr|]; [|done].
    destruct (NavBar.buttons (PageTemplate.navbar (page fr)) !! n) as [b|]; [|done].
    destruct (Button.command b).
    destruct (Button.state b); simpl; by rewrite ?show_frame_instances.
Qed.

Lemma exec_names (ops : list Op) (app : App) :
  (PageTemplate.name ∘ page) <$> instances (exec ops app)
  = (PageTemplate.name ∘ page) <$> instances app.
Proof.
  revert app. induction ops as [|op ops IH]; intros app; [done|].
  change ((PageTemplate.name ∘ page) <$> instances (exec ops (step op app).2)
          = (PageTemplate.name ∘ page) <$> instances app).
  by rewrite IH, step_names.
Qed.

(** X13: no call renames a page: in every state a constructed application
    reaches, the frame made for the list element at position [f] still has
    the name its class's constructor gave it, and its [on_enter] returns
    normally, printing that name and changing nothing else. *)
Theorem on_enter_prints_constructed_name (ps : list PageClass) (version : string)
    (ops : list Op) :
  let app := exec ops (Controller_init ps version).2 in
  (PageTemplate.name ∘ page) <$> instances app
  = (λ F, PageTemplate.name (construct F (make_settings version))) <$> ps ∧
  (∀ f F, ps !! f = Some F →
          on_enter f app
          = (Ok tt,
             with_stdout
               (stdout app ++ [PageTemplate.name (construct F (make_settings version))])
               app)).
Proof.
  intros app.
  destruct (Controller_init_attrs ps version) as (_ & _ & Hins & _).
  assert (Hnames : (PageTemplate.name ∘ page) <$> instances app
                   = (λ F, PageTemplate.name (construct F (make_settings version))) <$> ps).
  { subst app. rewrite exec_names, Hins. by rewrite <-list_fmap_compose. }
  split; [done|].
  intros f F Hf.
  assert (Hn : ((PageTemplate.name ∘ page) <$> instances app) !! f
               = Some (PageTemplate.name (construct F (make_settings version))))
    by (by rewrite Hnames, list_lookup_fmap, Hf).
  rewrite list_lookup_fmap in Hn. unfold on_enter.
  destruct (instances app !! f) as [fr|]; simplify_eq/=.
  unfold PageTemplate.on_enter. by rewrite Hn.
Qed.

(** X14: two [show_frame] calls in a row on registered classes return
    normally; the frame shown last is on top with the frame shown before it
    right below (or just once on top when they are the same frame), the
    other frames keep their order below, and the two names are printed in
    call order. *)
Theorem show_frame_twice (app : App) (a b : PageClass) (fa fb : nat) :
  well_formed app →
  frames app !! a = Some fa →
  frames app !! b = Some fb →
  ∃ fra frb,
    instances app !! fa = Some fra ∧ instances app !! fb = Some frb ∧
    (show_frame a;; show_frame b) app
    = (Ok tt,
       with_stdout
         (stdout app ++ [PageTemplate.name (page fra); PageTemplate.name (page frb)])
         (with_stacking
            (filter (λ g, g ≠ fb ∧ g ≠ fa) (stacking app)
               ++ (if decide (fa = fb) then [fb] else [fa; fb]))
            app)) ∧
    visible ((show_frame a;; show_frame b) app).2 = Some fb.
Proof.
  intros Hwf Ha Hb.
  destruct (show_frame_run app a fa Hwf Ha) as (fra & Hia & _ & _ & _ & Hrun_a).
  destruct (show_frame_run app b fb Hwf Hb) as (frb & Hib & _ & Hgb & _ & _).
  pose proof (only_widgets_well_formed _ _ (show_frame_only_widgets a app) Hwf) as Hwf1.
  rewrite Hrun_a in Hwf1. simpl in Hwf1.
  destruct (show_frame_run _ b fb Hwf1 Hb) as (frb' & Hib' & _ & _ & _ & Hrun_b).
  simpl in Hib'. assert (frb' = frb) as -> by congruence.
  assert (Hrun : (show_frame a;; show_frame b) app
                 = (Ok tt,
                    with_stdout
                      (stdout app
                         ++ [PageTemplate.name (page fra); PageTemplate.name (page frb)])
                      (with_stacking
                         (filter (λ g, g ≠ fb ∧ g ≠ fa) (stacking app)
                            ++ (if decide (fa = fb) then [fb] else [fa; fb]))
                         app))).
  { unfold mbind, M_bind. rewrite Hrun_a, Hrun_b.
    destruct app as [se ins st fr pg da qu out]; simpl in *.
    unfold with_stdout, with_stacking; simpl. do 2 f_equal.
    - rewrite filter_app, list_filter_filter, filter_cons, filter_nil.
      destruct (decide (fa = fb)) as [->|Hne].
      + rewrite decide_False by (by intros ?). by rewrite app_nil_r.
      + rewrite decide_True by done. by rewrite <-app_assoc.
    - by rewrite <-app_assoc. }
  exists fra, frb. rewrite Hrun. split_and!; try done.
  unfold visible. simpl.
  destruct (decide (fa = fb)) as [->|Hne].
  - by apply visible_after_raise.
  - rewrite (assoc_L (++) _ [fa] [fb]). by apply visible_after_raise.
Qed.



(** ** Further properties: PageTemplate and SubTable *)





End Application.

(** * The properties at concrete applications

    No page class of the host program ([Empty_set]), and [unit] for the
    values the host program would store. *)

Lemma show_frame_registered_witness :
  let app := (Controller_init (UserClass := Empty_set) (Value := unit)
                (λ u _, match u with end) [Home_cls; PageTemplate_cls] "0.0").2 in
  well_formed app ∧
  frames app !! PageTemplate_cls = Some 1 ∧
  last (stacking app) = Some 0 ∧
  last (stacking (show_frame PageTemplate_cls app).2) = Some 1 ∧
  visible (show_frame PageTemplate_cls app).2 = Some 1 ∧
  stdout (show_frame PageTemplate_cls app).2 = ["Home"; "template"].
Proof.
  cbv zeta. split; [apply Controller_init_well_formed|].
  split; [by vm_compute|]. split; [by vm_compute|].
  destruct (show_frame_registered
              (Controller_init (UserClass := Empty_set) (Value := unit)
                 (λ u _, match u with end) [Home_cls; PageTemplate_cls] "0.0").2
              PageTemplate_cls 1)
    as (fr & Hfr & _ & _ & Htop & Hvis & Hout).
  - apply Controller_init_well_formed.
  - by vm_compute.
  - split; [exact Htop|]. split; [exact Hvis|].
    rewrite Hout. vm_compute in Hfr. injection Hfr as <-. by vm_compute.
Defined.

(** C2, as the claim states it, fails on a list that names a class twice:
    the loop instantiates Home twice, both frames stay children of the
    container, and the registry keeps only the second. *)
Lemma Controller_init_repeated_class :
  let ps := [Home_cls; Home_cls] in
  let r := Controller_init (UserClass := Empty_set) (Value := unit)
             (λ u _, match u with end) ps "0.0" in
  r.1 = Ok tt ∧
  count_instances Home_cls r.2 = 2 ∧
  length (instances r.2) = 2 ∧
  frames r.2 !! Home_cls = Some 1 ∧
  ¬ (∀ F, F ∈ ps → count_instances F r.2 = 1).
Proof.
  cbv zeta. split_and!; try by vm_compute.
  intros Hall. specialize (Hall Home_cls (list_elem_of_here _ _)).
  vm_compute in Hall. discriminate.
Qed.

Lemma Controller_init_distinct_witness :
  let ps := [Home_cls; PageTemplate_cls] in
  let r := Controller_init (UserClass := Empty_set) (Value := unit)
             (λ u _, match u with end) ps "0.0" in
  NoDup ps ∧
  r.1 = Ok tt ∧
  cls <$> instances r.2 = ps ∧
  (∀ F, F ∈ ps → count_instances F r.2 = 1) ∧
  (∀ F, F ∉ ps → count_instances F r.2 = 0) ∧
  (∀ i F, ps !! i = Some F → frames r.2 !! F = Some i) ∧
  last (stacking r.2) = Some 0 ∧
  visible r.2 = Some 0 ∧
  stdout r.2 = ["Home"].
Proof.
  cbv zeta. split.
  - apply (bool_decide_unpack _). by vm_compute.
  - apply (Controller_init_distinct (UserClass := Empty_set) (Value := unit)
             (λ u _, match u with end) Home_cls [PageTemplate_cls] "0.0").
    apply (bool_decide_unpack _). by vm_compute.
Defined.

Lemma show_frame_unregistered_witness :
  let app := (Controller_init (UserClass := Empty_set) (Value := unit)
                (λ u _, match u with end) [Home_cls] "0.0").2 in
  frames app !! PageTemplate_cls = None ∧
  show_frame PageTemplate_cls app = (Raise KeyError, app).
Proof.
  cbv zeta. split; [by vm_compute|].
  apply show_frame_unregistered. by vm_compute.
Defined.

(** The quickstart of the module, [Controller([Home], '0.0')]: one Home
    frame, on top, entered once, with its title, description and label. *)
Example quickstart :
  let r := Controller_init (UserClass := Empty_set) (Value := unit)
             (λ u _, match u with end) [Home_cls] "0.0" in
  r.1 = Ok tt ∧
  visible r.2 = Some 0 ∧
  stdout r.2 = ["Home"] ∧
  (PageTemplate.navbar ∘ page <$> instances r.2 !! 0)
  = Some (NavBar.mk "navbar_subframe"
            {[ "Home" := Button.mk "Home" show_frame_Home "red" normal ]}
            (Label.mk "Home" (Some ("Verdana", 30)) None)
            (Text.mk "Hello, world" disabled "word" 150 5)
            (Label.mk "Messages will be displayed here" (Some ("Verdana", 12)) (Some "blue"))) ∧
  (PageTemplate.labels ∘ page <$> instances r.2 !! 0)
  = Some {[ "pageLabel" := Label.mk "This is the Page Frame" (Some ("Verdana", 20)) None ]}.
Proof. cbv zeta. split_and!; by vm_compute. Qed.


(** * The further properties at concrete applications *)

Lemma locked_page_ignores_clicks_witness :
  let app := (Controller_init (UserClass := Empty_set) (Value := unit)
                (λ u _, match u with end) [PageTemplate_cls; Home_cls] "0.0").2 in
  (step (Click 0 "Home") app).1 = Ok tt ∧
  visible (step (Click 0 "Home") app).2 = Some 1 ∧
  step (Click 0 "Home") (step (Call_lock 0) app).2 = (Ok tt, (step (Call_lock 0) app).2) ∧
  visible (step (Call_lock 0) app).2 = Some 0.
Proof.
  cbv zeta. split; [by vm_compute|]. split; [by vm_compute|]. split; [|by vm_compute].
  refine (proj2 (locked_page_ignores_clicks _ 0
            (mkFrame PageTemplate_cls (PageTemplate.init (make_settings "0.0") 50)
               (Some (0, 0, "nsew"))) "Home" _ _)).
  - by vm_compute.
  - eexists. by vm_compute.
Defined.

Lemma click_Home_shows_Home_witness :
  let app := (Controller_init (UserClass := Empty_set) (Value := unit)
                (λ u _, match u with end) [PageTemplate_cls; Home_cls] "0.0").2 in
  visible app = Some 0 ∧
  ∃ hfr,
    instances app !! 1 = Some hfr ∧ cls hfr = Home_cls ∧
    (step (Click 0 "Home") app).1 = Ok tt ∧
    visible (step (Click 0 "Home") app).2 = Some 1 ∧
    last (stacking (step (Click 0 "Home") app).2) = Some 1 ∧
    stdout (step (Click 0 "Home") app).2 = stdout app ++ [PageTemplate.name (page hfr)] ∧
    instances (step (Click 0 "Home") app).2 = instances app.
Proof.
  cbv zeta. split; [by vm_compute|].
  apply (click_Home_shows_Home _ 0 1
           (mkFrame PageTemplate_cls (PageTemplate.init (make_settings "0.0") 50)
              (Some (0, 0, "nsew")))
           (Button.mk "Home" show_frame_Home "red" normal)).
  - apply Controller_init_well_formed.
  - by vm_compute.
  - by vm_compute.
  - discriminate.
  - by vm_compute.
Defined.

Lemma click_Home_without_Home_witness :
  let app := (Controller_init (UserClass := Empty_set) (Value := unit)
                (λ u _, match u with end) [PageTemplate_cls] "0.0").2 in
  frames app !! Home_cls = None ∧
  step (Click 0 "Home") app = (Raise KeyError, app).
Proof.
  cbv zeta. split; [by vm_compute|].
  apply (click_Home_without_Home _ 0
           (mkFrame PageTemplate_cls (PageTemplate.init (make_settings "0.0") 50)
              (Some (0, 0, "nsew")))
           (Button.mk "Home" show_frame_Home "red" normal)).
  - by vm_compute.
  - by vm_compute.
  - discriminate.
  - by vm_compute.
Defined.

Lemma quiet_calls_keep_visible_witness :
  let app := (Controller_init (UserClass := Empty_set) (Value := unit)
                (λ u _, match u with end) [Home_cls; PageTemplate_cls] "0.0").2 in
  stacking (step (Call_update_title 1 "Reports") app).2 = stacking app ∧
  (∀ f, gridded (step (Call_update_title 1 "Reports") app).2 f = gridded app f) ∧
  visible (step (Call_update_title 1 "Reports") app).2 = visible app.
Proof.
  cbv zeta. apply quiet_calls_keep_visible. reflexivity.
Defined.

Lemma show_frame_twice_witness :
  let app := (Controller_init (UserClass := Empty_set) (Value := unit)
                (λ u _, match u with end)
                [Home_cls; PageTemplate_cls] "0.0").2 in
  stacking app = [1; 0] ∧
  ∃ fra frb,
    instances app !! 1 = Some fra ∧ instances app !! 0 = Some frb ∧
    (show_frame PageTemplate_cls;; show_frame Home_cls) app
    = (Ok tt,
       with_stdout
         (stdout app ++ [PageTemplate.name (page fra); PageTemplate.name (page frb)])
         (with_stacking
            (filter (λ g, g ≠ 0 ∧ g ≠ 1) (stacking app)
               ++ (if decide (1 = 0) then [0] else [1; 0]))
            app)) ∧
    visible ((show_frame PageTemplate_cls;; show_frame Home_cls) app).2 = Some 0.
Proof.
  cbv zeta. split; [by vm_compute|].
  apply show_frame_twice.
  - apply Controller_init_well_formed.
  - by vm_compute.
  - by vm_compute.
Defined.



